(** * Unit economics engine (calc_engine.py): shallow embedding and properties

    The engine is a pandas pipeline of three passes over one DataFrame.
    The embedding keeps that shape:

    - a float is a [num]: an exact rational, or one of the three special
      values that float division produces ([PInf], [NInf], [NaN]).  Rounding,
      overflow and signed zeros are not represented, so an equation between
      [num]s below is an equation of exact arithmetic.  Which branch is
      taken, which cell is [NaN] and which formula a column holds do not
      depend on rounding; an equality between two differently computed
      numbers does, and the module [Doubles] repeats the lines concerned on
      IEEE binary64 floats, the doubles the code computes with;
    - a DataFrame with [n] rows is a finite map from column names to
      vectors of [n] cells; a cell is a float, a text or a boolean, and a
      missing cell is [NaN];
    - a statement [self.df[c] = e] is an insertion into that map, a read
      [self.df[c]] is a lookup that raises [KeyError] when the column is
      absent, and arithmetic on a column raises [TypeError] on a text cell;
    - the passes are written in a state-and-exception monad over the
      DataFrame, one line per assignment of the source;
    - the engine object lives in a store of DataFrames, so that the copy
      taken by the constructor and the in-place updates of the passes are
      visible.

    The constants of [assumptions] are finite numbers, and every numeric
    column is a float64 column: an integer column is read as the floats of
    its values.  [df.apply] on a table without rows is taken to give the
    empty column. *)

From Stdlib Require Import QArith Qcanon Floats.
From stdpp Require Import gmap strings list fin_maps vector.

Set Warnings "-inexact-float".

Local Open Scope Qc_scope.

(** ** Floats *)

Module Num.

Inductive num : Type :=
  | Fin (q : Qc)
  | PInf
  | NInf
  | NaN.

Definition sgn (q : Qc) : comparison := q ?= 0.

Definition signed_inf (c : comparison) : num :=
  match c with Gt => PInf | Lt => NInf | Eq => NaN end.

Definition opp (x : num) : num :=
  match x with
  | Fin q => Fin (- q)
  | PInf => NInf
  | NInf => PInf
  | NaN => NaN
  end.

Definition add (x y : num) : num :=
  match x, y with
  | NaN, _ | _, NaN => NaN
  | Fin a, Fin b => Fin (a + b)
  | PInf, NInf | NInf, PInf => NaN
  | PInf, _ | _, PInf => PInf
  | NInf, _ | _, NInf => NInf
  end.

Definition sub (x y : num) : num := add x (opp y).

Definition mul (x y : num) : num :=
  match x, y with
  | NaN, _ | _, NaN => NaN
  | Fin a, Fin b => Fin (a * b)
  | Fin a, PInf | PInf, Fin a => signed_inf (sgn a)
  | Fin a, NInf | NInf, Fin a => signed_inf (CompOpp (sgn a))
  | PInf, PInf | NInf, NInf => PInf
  | PInf, NInf | NInf, PInf => NInf
  end.

(** [x / 0] is an infinity of the sign of [x], and [0 / 0] is [NaN]: numpy
    division, which pandas uses, raises nothing. *)
Definition div (x y : num) : num :=
  match x, y with
  | NaN, _ | _, NaN => NaN
  | Fin a, Fin b => if decide (b = 0) then signed_inf (sgn a) else Fin (a / b)
  | Fin _, (PInf | NInf) => Fin 0
  | (PInf | NInf), (PInf | NInf) => NaN
  | PInf, Fin b => match sgn b with Lt => NInf | _ => PInf end
  | NInf, Fin b => match sgn b with Lt => PInf | _ => NInf end
  end.

Definition cmp (x y : num) : option comparison :=
  match x, y with
  | NaN, _ | _, NaN => None
  | Fin a, Fin b => Some (a ?= b)
  | PInf, PInf | NInf, NInf => Some Eq
  | PInf, _ | _, NInf => Some Gt
  | NInf, _ | _, PInf => Some Lt
  end.

Definition ltb (x y : num) : bool :=
  match cmp x y with Some Lt => true | _ => false end.
Definition leb (x y : num) : bool :=
  match cmp x y with Some Lt | Some Eq => true | _ => false end.
Definition gtb (x y : num) : bool := ltb y x.
Definition eqb (x y : num) : bool :=
  match cmp x y with Some Eq => true | _ => false end.

Definition is_nan (x : num) : bool :=
  match x with NaN => true | _ => false end.
Definition is_finite (x : num) : bool :=
  match x with Fin _ => true | _ => false end.

(** Python's builtins [max(a, b)] and [min(a, b)]: the first argument is
    kept unless the second compares strictly beyond it. *)
Definition py_max (a b : num) : num := if gtb b a then b else a.
Definition py_min (a b : num) : num := if ltb b a then b else a.

(** [DataFrame.max(axis=1)] on two columns: missing values are skipped. *)
Definition nanmax (a b : num) : num :=
  match a, b with
  | NaN, y => y
  | x, NaN => x
  | _, _ => if ltb a b then b else a
  end.

(** [Series.sum()] on floats: missing values are skipped, the empty sum
    is 0. *)
Definition nansum (l : list num) : num :=
  foldl add (Fin 0) (filter (λ x, is_nan x = false) l).

(** A decimal literal [z / p]. *)
Definition lit (z : Z) (p : positive) : Qc := Q2Qc (z # p).

End Num.
Export Num.

Declare Scope num_scope.
Delimit Scope num_scope with num.
Bind Scope num_scope with num.
Infix "+" := Num.add : num_scope.
Infix "-" := Num.sub : num_scope.
Infix "*" := Num.mul : num_scope.
Infix "/" := Num.div : num_scope.

(** ** Cells, exceptions and DataFrames *)

(** A cell of a DataFrame.  A missing cell is pandas' [NaN]. *)
Inductive cell : Type :=
  | CNum (x : num)
  | CStr (s : string)
  | CBool (b : bool).

Inductive exn : Type :=
  | KeyError (c : string)
  | TypeError.

Inductive result (A : Type) : Type :=
  | Ok (a : A)
  | Raise (e : exn).
Arguments Ok {A} a.
Arguments Raise {A} e.

(** A DataFrame with [n] rows: column name to column. *)
Abbreviation frame n := (gmap string (vec cell n)).

(** Statements and expressions over [self.df]: the frame is threaded as
    state, and it survives an exception. *)
Definition M (n : nat) (A : Type) : Type := frame n → result A * frame n.

Definition ret {n A} (a : A) : M n A := λ df, (Ok a, df).
Definition bind {n A B} (k : A → M n B) (c : M n A) : M n B :=
  λ df, match c df with
        | (Ok a, df') => k a df'
        | (Raise e, df') => (Raise e, df')
        end.
Definition raise {n A} (e : exn) : M n A := λ df, (Raise e, df).

#[global] Instance M_ret n : MRet (M n) := @ret n.
#[global] Instance M_bind n : MBind (M n) := @bind n.

Fixpoint for_each {n A} (l : list A) (body : A → M n unit) : M n unit :=
  match l with
  | [] => ret tt
  | x :: l' => body x;; for_each l' body
  end.

(** The value a cell has in arithmetic; text has none. *)
Definition cell_float (c : cell) : option num :=
  match c with
  | CNum x => Some x
  | CBool b => Some (Fin (if b then 1 else 0))
  | CStr _ => None
  end.

Definition is_numeric (c : cell) : bool :=
  match cell_float c with Some _ => true | None => false end.

Definition cell_val (c : cell) : num := default NaN (cell_float c).

Section DataFrame.
Context {n : nat}.

(** [col in self.df.columns] *)
Definition has_column (c : string) (df : frame n) : bool :=
  bool_decide (is_Some (df !! c)).

(** [self.df[c]] *)
Definition getitem (c : string) : M n (vec cell n) :=
  λ df, match df !! c with
        | Some v => (Ok v, df)
        | None => (Raise (KeyError c), df)
        end.

(** [self.df[c] = v] *)
Definition setitem (c : string) (v : vec cell n) : M n unit :=
  λ df, (Ok tt, <[c := v]> df).

(** [self.df[c] = x] for a scalar [x] *)
Definition setscalar (c : string) (x : cell) : M n unit :=
  setitem c (vreplicate n x).

(** A column used in arithmetic or in a comparison. *)
Definition as_float (v : vec cell n) : M n (vec num n) :=
  if forallb is_numeric (vec_to_list v) then ret (vmap cell_val v)
  else raise TypeError.

Definition getfloat (c : string) : M n (vec num n) :=
  v ← getitem c; as_float v.

Definition setfloat (c : string) (v : vec num n) : M n unit :=
  setitem c (vmap CNum v).

(** [Series.sum()] *)
Definition series_sum (v : vec num n) : num := nansum (vec_to_list v).

End DataFrame.

(** Elementwise arithmetic on columns. *)
Definition vadd {n} (v w : vec num n) : vec num n := vzip_with Num.add v w.
Definition vmul {n} (v w : vec num n) : vec num n := vzip_with Num.mul v w.
Definition vdiv {n} (v w : vec num n) : vec num n := vzip_with Num.div v w.
Definition vsub {n} (v w : vec num n) : vec num n := vzip_with Num.sub v w.
(** Column-and-scalar arithmetic, the scalar on the right or on the left. *)
Definition vmuls {n} (v : vec num n) (k : num) : vec num n :=
  vmap (λ x, (x * k)%num) v.
Definition vdivs {n} (v : vec num n) (k : num) : vec num n :=
  vmap (λ x, (x / k)%num) v.
Definition smulv {n} (k : num) (v : vec num n) : vec num n :=
  vmap (λ x, (k * x)%num) v.

(** ** The engine's inputs *)

(** [assumptions]: the dict of constants, read with [.get(key, default)]
    everywhere.  A field is [None] when the key is absent. *)
Record assumptions : Type := {
  uom_dim : option string;
  uom_weight : option string;
  dim_divisor : option Qc;
  fx_rate : option Qc;
  freight_total_spend : option Qc;
  allocation_method : option string;
  mpf_rate : option Qc;
  mpf_min : option Qc;
  mpf_max : option Qc;
  hmf_rate : option Qc;
  brokerage_fee : option Qc;
  default_referral_pct : option Qc;
  wfs_base_fee : option Qc;
  wfs_base_weight_lb : option Qc;
  wfs_excess_per_lb : option Qc;
  wfs_storage_rate : option Qc;
  ads_pct_sales : option Qc;
  returns_pct_sales : option Qc
}.

(** [mappings]: canonical field name to source column name, or to Python's
    [None] (the inner [option]) when the field was left unmapped. *)
Abbreviation mappings := (gmap string (option string)).

(** [self.map.get(key, dflt)] *)
Definition map_get (m : mappings) (key dflt : string) : option string :=
  match m !! key with
  | Some v => v
  | None => Some dflt
  end.

(** A Python dict as the list of its items in insertion order: writing an
    existing key replaces the value and keeps the key's position. *)
Fixpoint dict_set {K V} `{EqDecision K} (k : K) (v : V) (d : list (K * V))
  : list (K * V) :=
  match d with
  | [] => [(k, v)]
  | (k', v') :: d' =>
      if decide (k' = k) then (k', v) :: d' else (k', v') :: dict_set k v d'
  end.

Definition dict_display {K V} `{EqDecision K} (items : list (K * V))
  : list (K * V) :=
  foldl (λ d kv, dict_set kv.1 kv.2 d) [] items.

(** ** The three passes *)

Section Engine.
Context {n : nat}.

(** [pd.to_numeric] reads a text cell as a float or fails on it; it is
    pandas code, taken as a parameter.  What it reads may be an infinity
    (the text [inf]) or [NaN]. *)
Variable parse_float : string → option num.

Definition in_columns (c : string) : M n bool :=
  λ df, (Ok (has_column c df), df).

(** [pd.to_numeric(_, errors='coerce')] on one cell *)
Definition to_numeric (c : cell) : num :=
  match c with
  | CNum x => x
  | CBool b => Fin (if b then 1 else 0)
  | CStr s => match parse_float s with Some x => x | None => NaN end
  end.

Definition fillna (dflt x : num) : num := if is_nan x then dflt else x.

Definition _safe_numeric (col_name : string) (dflt : num) : M n unit :=
  present ← in_columns col_name;
  (if (present : bool) then ret tt else setscalar col_name (CNum dflt));;
  v ← getitem col_name;
  setfloat col_name (vmap (λ c, fillna dflt (to_numeric c)) v).

Definition target_cols (m : mappings) : list (option string * string) :=
  dict_display
    [ (map_get m "sku" "sku", "sku");
      (map_get m "qty" "qty", "qty");
      (map_get m "unit_cost" "unit_cost", "unit_cost");
      (map_get m "length" "length", "length");
      (map_get m "width" "width", "width");
      (map_get m "height" "height", "height");
      (map_get m "weight" "weight", "weight");
      (map_get m "selling_price" "selling_price", "selling_price");
      (map_get m "duty_rate" "duty_rate", "duty_rate_pct") ].

(** Python truth value of a mapping entry: [None] and the empty string are
    false. *)
Definition truthy (user_col : option string) : option string :=
  match user_col with
  | Some u => if decide (u = "") then None else Some u
  | None => None
  end.

Definition fill_default (internal_col : string) : M n unit :=
  if decide (internal_col = "sku")
  then setscalar internal_col (CStr "Unknown-SKU")
  else setscalar internal_col (CNum (Fin 0)).

(** The body of the loop over [target_cols.items()]. *)
Definition map_column (item : option string * string) : M n unit :=
  let '(user_col, internal_col) := item in
  match truthy user_col with
  | Some u =>
      present ← in_columns u;
      if (present : bool) then v ← getitem u; setitem internal_col v
      else fill_default internal_col
  | None => fill_default internal_col
  end.

Definition numeric_cols : list string :=
  ["qty"; "unit_cost"; "length"; "width"; "height"; "weight";
   "selling_price"; "duty_rate_pct"].

Definition run_conversions (m : mappings) (a : assumptions) : M n unit :=
  for_each (target_cols m) map_column;;
  for_each numeric_cols (λ c, _safe_numeric c (Fin 0));;
  (if decide (default "cm" (uom_dim a) = "in") then
     l ← getfloat "length"; setfloat "len_m" (vmuls l (Fin (lit 254 10000)));;
     w ← getfloat "width"; setfloat "wid_m" (vmuls w (Fin (lit 254 10000)));;
     h ← getfloat "height"; setfloat "hgt_m" (vmuls h (Fin (lit 254 10000)));;
     l ← getfloat "length"; setfloat "len_in" l;;
     w ← getfloat "width"; setfloat "wid_in" w;;
     h ← getfloat "height"; setfloat "hgt_in" h
   else
     l ← getfloat "length"; setfloat "len_m" (vdivs l (Fin (lit 100 1)));;
     w ← getfloat "width"; setfloat "wid_m" (vdivs w (Fin (lit 100 1)));;
     h ← getfloat "height"; setfloat "hgt_m" (vdivs h (Fin (lit 100 1)));;
     l ← getfloat "length"; setfloat "len_in" (vdivs l (Fin (lit 254 100)));;
     w ← getfloat "width"; setfloat "wid_in" (vdivs w (Fin (lit 254 100)));;
     h ← getfloat "height"; setfloat "hgt_in" (vdivs h (Fin (lit 254 100))));;
  (if decide (default "kg" (uom_weight a) = "lb") then
     w ← getfloat "weight"; setfloat "weight_kg" (vmuls w (Fin (lit 453592 1000000)));;
     w ← getfloat "weight"; setfloat "weight_lb" w
   else
     w ← getfloat "weight"; setfloat "weight_kg" w;;
     w ← getfloat "weight"; setfloat "weight_lb" (vmuls w (Fin (lit 220462 100000))));;
  l ← getfloat "len_m"; w ← getfloat "wid_m"; h ← getfloat "hgt_m";
  setfloat "unit_cbm" (vmul (vmul l w) h);;
  c ← getfloat "unit_cbm"; setfloat "unit_cuft" (vmuls c (Fin (lit 353147 10000)));;
  c ← getfloat "unit_cbm"; q ← getfloat "qty"; setfloat "total_line_cbm" (vmul c q);;
  w ← getfloat "weight_kg"; q ← getfloat "qty";
  setfloat "total_line_weight_kg" (vmul w q);;
  let dim_div := default (lit 139 1) (dim_divisor a) in
  l ← getfloat "len_in"; w ← getfloat "wid_in"; h ← getfloat "hgt_in";
  setfloat "dim_weight_lb" (vdivs (vmul (vmul l w) h) (Fin dim_div));;
  w ← getfloat "weight_lb"; d ← getfloat "dim_weight_lb";
  setfloat "billable_weight_lb" (vzip_with nanmax w d).

(** [if total == 0: total = 1] *)
Definition zero_to_one (total : num) : num :=
  if eqb total (Fin 0) then Fin 1 else total.

(** [min(max(total_invoice_val * mpf_rate, mpf_min), mpf_max)] *)
Definition total_mpf (a : assumptions) (total_invoice_val : num) : num :=
  py_min (py_max (total_invoice_val * Fin (default (lit 3464 1000000) (mpf_rate a)))%num
                 (Fin (default (lit 31 1) (mpf_min a))))
         (Fin (default (lit 614 1) (mpf_max a))).

Definition total_fixed_import_fees (a : assumptions) (total_invoice_val : num)
  : num :=
  let total_hmf :=
    (total_invoice_val * Fin (default (lit 125 100000) (hmf_rate a)))%num in
  (total_mpf a total_invoice_val + total_hmf
   + Fin (default 0 (brokerage_fee a)))%num.

Definition calculate_landed_cost (a : assumptions) : M n unit :=
  let fx := default 1 (fx_rate a) in
  c ← getfloat "unit_cost"; setfloat "unit_cost_usd" (vmuls c (Fin fx));;
  c ← getfloat "unit_cost_usd"; q ← getfloat "qty";
  setfloat "total_purchase_cost" (vmul c q);;
  cbm ← getfloat "total_line_cbm";
  kg ← getfloat "total_line_weight_kg";
  let total_cbm := zero_to_one (series_sum cbm) in
  let total_kg := zero_to_one (series_sum kg) in
  let freight := default 0 (freight_total_spend a) in
  let alloc_method := default "cbm" (allocation_method a) in
  (if decide (alloc_method = "weight") then
     kg ← getfloat "total_line_weight_kg";
     setfloat "alloc_share" (vdivs kg total_kg)
   else if decide (alloc_method = "hybrid") then
     cbm ← getfloat "total_line_cbm";
     kg ← getfloat "total_line_weight_kg";
     setfloat "alloc_share"
       (vadd (smulv (Fin (lit 5 10)) (vdivs cbm total_cbm))
             (smulv (Fin (lit 5 10)) (vdivs kg total_kg)))
   else
     cbm ← getfloat "total_line_cbm";
     setfloat "alloc_share" (vdivs cbm total_cbm));;
  s ← getfloat "alloc_share";
  setfloat "allocated_freight_total" (smulv (Fin freight) s);;
  f ← getfloat "allocated_freight_total"; q ← getfloat "qty";
  setfloat "unit_freight_cost" (vdiv f q);;
  c ← getfloat "unit_cost_usd"; d ← getfloat "duty_rate_pct";
  setfloat "unit_duty_amt" (vmul c (vdivs d (Fin (lit 100 1))));;
  p ← getfloat "total_purchase_cost";
  let total_invoice_val := series_sum p in
  let fees := total_fixed_import_fees a total_invoice_val in
  let total_invoice_val := zero_to_one total_invoice_val in
  p ← getfloat "total_purchase_cost";
  setfloat "value_share" (vdivs p total_invoice_val);;
  s ← getfloat "value_share";
  setfloat "allocated_import_fees" (smulv fees s);;
  f ← getfloat "allocated_import_fees"; q ← getfloat "qty";
  setfloat "unit_import_fees" (vdiv f q);;
  c ← getfloat "unit_cost_usd"; f ← getfloat "unit_freight_cost";
  d ← getfloat "unit_duty_amt"; i ← getfloat "unit_import_fees";
  setfloat "landed_cost_unit" (vadd (vadd (vadd c f) d) i).

(** The nested function [calc_wfs], on the row's billable weight. *)
Definition calc_wfs (a : assumptions) (bw : num) : num :=
  let wfs_base := Fin (default (lit 345 100) (wfs_base_fee a)) in
  let wfs_weight_allowance := Fin (default 1 (wfs_base_weight_lb a)) in
  let wfs_excess_rate := Fin (default (lit 40 100) (wfs_excess_per_lb a)) in
  if leb bw wfs_weight_allowance then wfs_base
  else (wfs_base + (bw - wfs_weight_allowance) * wfs_excess_rate)%num.

(** The locals [def_ref_rate], [ads_pct], [returns_pct] and [var_fee_pct] of
    [calculate_walmart_economics]. *)
Definition def_ref_rate (a : assumptions) : num :=
  Fin (default (lit 15 1) (default_referral_pct a)).
Definition ads_pct (a : assumptions) : num :=
  Fin (default (lit 5 1) (ads_pct_sales a)).
Definition returns_pct (a : assumptions) : num :=
  Fin (default (lit 3 1) (returns_pct_sales a)).
Definition var_fee_pct (a : assumptions) : num :=
  ((def_ref_rate a + ads_pct a + returns_pct a) / Fin (lit 100 1))%num.

Definition calculate_walmart_economics (a : assumptions) : M n unit :=
  let hundred := Fin (lit 100 1) in
  present ← in_columns "walmart_referral_pct";
  override ← (if (present : bool) then
                r ← getfloat "walmart_referral_pct";
                mret (gtb (series_sum r) (Fin 0))
              else mret false);
  (if (override : bool) then
     p ← getfloat "selling_price"; r ← getfloat "walmart_referral_pct";
     setfloat "referral_fee" (vmul p (vdivs r hundred))
   else
     p ← getfloat "selling_price";
     setfloat "referral_fee" (vmuls p (def_ref_rate a / hundred)%num));;
  bw ← getfloat "billable_weight_lb";
  setfloat "wfs_fulfillment_fee" (vmap (calc_wfs a) bw);;
  let storage_rate := Fin (default (lit 87 100) (wfs_storage_rate a)) in
  c ← getfloat "unit_cuft"; setfloat "wfs_storage_fee_mo" (vmuls c storage_rate);;
  p ← getfloat "selling_price";
  setfloat "ads_cost" (vmuls p (ads_pct a / hundred)%num);;
  p ← getfloat "selling_price";
  setfloat "returns_cost" (vmuls p (returns_pct a / hundred)%num);;
  r ← getfloat "referral_fee"; f ← getfloat "wfs_fulfillment_fee";
  s ← getfloat "wfs_storage_fee_mo"; ad ← getfloat "ads_cost";
  rc ← getfloat "returns_cost";
  setfloat "total_amz_fees" (vadd (vadd (vadd (vadd r f) s) ad) rc);;
  p ← getfloat "selling_price"; lc ← getfloat "landed_cost_unit";
  fees ← getfloat "total_amz_fees";
  setfloat "net_profit" (vsub (vsub p lc) fees);;
  np ← getfloat "net_profit"; p ← getfloat "selling_price";
  setfloat "net_margin_pct" (vmuls (vdiv np p) hundred);;
  np ← getfloat "net_profit"; lc ← getfloat "landed_cost_unit";
  setfloat "roi_pct" (vmuls (vdiv np lc) hundred);;
  lc ← getfloat "landed_cost_unit"; f ← getfloat "wfs_fulfillment_fee";
  s ← getfloat "wfs_storage_fee_mo";
  let fixed_costs := vadd (vadd lc f) s in
  setfloat "breakeven_price" (vdivs fixed_costs (Fin 1 - var_fee_pct a)%num);;
  np ← getfloat "net_profit";
  setitem "is_profitable" (vmap (λ x, CBool (gtb x (Fin 0))) np).

(** The three passes in the order the application runs them. *)
Definition run_engine (m : mappings) (a : assumptions) : M n unit :=
  run_conversions m a;;
  calculate_landed_cost a;;
  calculate_walmart_economics a.

End Engine.

(** ** The engine object and its caller *)

(** DataFrames are objects: the caller and the engine hold references to
    them, and the passes update the engine's DataFrame in place. *)
Definition loc : Type := positive.
Definition table : Type := { n : nat & frame n }.
Abbreviation store := (gmap loc table).

(** A reference always points to an object; a location that was never
    allocated reads as the table without rows and columns. *)
#[global] Instance table_inhabited : Inhabited table := populate (existT 0%nat ∅).

Record UnitEconomicsEngine : Type := {
  self_df : loc;
  self_map : mappings;
  self_assumptions : assumptions;
  self_logs : list string
}.

Section Object.
Variable parse_float : string → option num.

(** [__init__]: [self.df = df.copy()] allocates a new DataFrame. *)
Definition __init__ (df : loc) (m : mappings) (a : assumptions) (σ : store)
  : UnitEconomicsEngine * store :=
  let l := fresh (dom σ) in
  ({| self_df := l; self_map := m; self_assumptions := a; self_logs := [] |},
   <[l := σ !!! df]> σ).

Definition log (self : UnitEconomicsEngine) (message : string)
  : UnitEconomicsEngine :=
  {| self_df := self_df self; self_map := self_map self;
     self_assumptions := self_assumptions self;
     self_logs := self_logs self ++ [message] |}.

(** A method body runs on the DataFrame [self.df] points to and leaves its
    updates there, also when it raises. *)
Definition call (body : ∀ n, M n unit) (self : UnitEconomicsEngine) (σ : store)
  : result unit * store :=
  let t := σ !!! self_df self in
  let out := body (projT1 t) (projT2 t) in
  (out.1, <[self_df self := existT (projT1 t) out.2]> σ).

Definition get_results (self : UnitEconomicsEngine) : loc := self_df self.

(** The handler of the application's "Run Calculations" button: build the
    engine on the uploaded table, run the three passes, keep the result. *)
Definition run_calculations (data_df : loc) (m : mappings) (a : assumptions)
  (σ : store) : result loc * store :=
  let '(engine, σ) := __init__ data_df m a σ in
  match call (λ n, run_conversions parse_float (self_map engine)
                     (self_assumptions engine)) engine σ with
  | (Raise e, σ) => (Raise e, σ)
  | (Ok _, σ) =>
  match call (λ n, calculate_landed_cost (self_assumptions engine)) engine σ with
  | (Raise e, σ) => (Raise e, σ)
  | (Ok _, σ) =>
  match call (λ n, calculate_walmart_economics (self_assumptions engine))
          engine σ with
  | (Raise e, σ) => (Raise e, σ)
  | (Ok _, σ) => (Ok (get_results engine), σ)
  end end end.

End Object.

(** ** Vocabulary of the statements *)

Section Vocabulary.
Context {n : nat}.

(** Column [c] of [df] as the engine's arithmetic reads it. *)
Definition float_column (df : frame n) (c : string) : option (vec num n) :=
  match getfloat c df with
  | (Ok v, _) => Some v
  | (Raise _, _) => None
  end.

(** Column [c] of [df] holds exactly the floats [v]. *)
Definition fcol (df : frame n) (c : string) (v : vec num n) : Prop :=
  df !! c = Some (vmap CNum v).

(** No cell of the table reads as an infinity: neither a number of the
    input nor what [pd.to_numeric] makes of a text cell.  A missing or
    unreadable cell is allowed. *)
Definition cell_finite (parse_float : string → option num) (c : cell) : Prop :=
  match to_numeric parse_float c with
  | PInf | NInf => False
  | _ => True
  end.

Definition finite_frame (parse_float : string → option num) (df : frame n)
  : Prop :=
  map_Forall (λ _ v, Forall (cell_finite parse_float) (vec_to_list v)) df.

Definition no_nan (v : vec num n) : Prop := ∀ i, is_nan (v !!! i) = false.
Definition all_finite (v : vec num n) : Prop :=
  ∀ i, is_finite (v !!! i) = true.


(** A statement writes no column outside [W], whether it returns or
    raises. *)
Definition preserves {A} (W : list string) (c : M n A) : Prop :=
  ∀ df k, k ∉ W → (c df).2 !! k = df !! k.

End Vocabulary.

(** ** What each pass writes *)

(** The columns each pass assigns. *)
Definition canonical : list string :=
  ["sku"; "qty"; "unit_cost"; "length"; "width"; "height"; "weight";
   "selling_price"; "duty_rate_pct"].
Definition written1 : list string :=
  canonical ++
  ["len_m"; "wid_m"; "hgt_m"; "len_in"; "wid_in"; "hgt_in"; "weight_kg";
   "weight_lb"; "unit_cbm"; "unit_cuft"; "total_line_cbm";
   "total_line_weight_kg"; "dim_weight_lb"; "billable_weight_lb"].
Definition written2 : list string :=
  ["unit_cost_usd"; "total_purchase_cost"; "alloc_share";
   "allocated_freight_total"; "unit_freight_cost"; "unit_duty_amt";
   "value_share"; "allocated_import_fees"; "unit_import_fees";
   "landed_cost_unit"].
Definition written3 : list string :=
  ["referral_fee"; "wfs_fulfillment_fee"; "wfs_storage_fee_mo"; "ads_cost";
   "returns_cost"; "total_amz_fees"; "net_profit"; "net_margin_pct";
   "roi_pct"; "breakeven_price"; "is_profitable"].

(** The columns of each pass as functions of the columns it reads, and what
    holds of the table when the pass has run. *)
Section Columns.
Context {n : nat}.

(** A column after [_safe_numeric]. *)
Definition coerced (parse_float : string → option num) (df : frame n)
  (c : string) : vec num n :=
  vmap (λ x, fillna (Fin 0) (to_numeric parse_float x))
       (default (vreplicate n (CNum (Fin 0))) (df !! c)).

(** Pass 1 *)
Definition len_m_of (a : assumptions) (v : vec num n) : vec num n :=
  if decide (default "cm" (uom_dim a) = "in")
  then vmuls v (Fin (lit 254 10000))
  else vdivs v (Fin (lit 100 1)).
Definition len_in_of (a : assumptions) (v : vec num n) : vec num n :=
  if decide (default "cm" (uom_dim a) = "in") then v
  else vdivs v (Fin (lit 254 100)).
Definition weight_kg_of (a : assumptions) (v : vec num n) : vec num n :=
  if decide (default "kg" (uom_weight a) = "lb")
  then vmuls v (Fin (lit 453592 1000000))
  else v.
Definition weight_lb_of (a : assumptions) (v : vec num n) : vec num n :=
  if decide (default "kg" (uom_weight a) = "lb")
  then v
  else vmuls v (Fin (lit 220462 100000)).
Definition unit_cbm_of (a : assumptions) (L W H : vec num n) : vec num n :=
  vmul (vmul (len_m_of a L) (len_m_of a W)) (len_m_of a H).
Definition dim_weight_of (a : assumptions) (L W H : vec num n) : vec num n :=
  vdivs (vmul (vmul (len_in_of a L) (len_in_of a W)) (len_in_of a H))
        (Fin (default (lit 139 1) (dim_divisor a))).

Record conversions_post (parse_float : string → option num)
    (a : assumptions) (df out : frame n)
    (L W H Wt Q UC SP DR : vec num n) : Prop := {
  cp_length : fcol out "length" L;
  cp_width : fcol out "width" W;
  cp_height : fcol out "height" H;
  cp_weight : fcol out "weight" Wt;
  cp_qty : fcol out "qty" Q;
  cp_unit_cost : fcol out "unit_cost" UC;
  cp_selling_price : fcol out "selling_price" SP;
  cp_duty_rate_pct : fcol out "duty_rate_pct" DR;
  cp_no_nan : no_nan L ∧ no_nan W ∧ no_nan H ∧ no_nan Wt ∧ no_nan Q ∧
              no_nan UC ∧ no_nan SP ∧ no_nan DR;
  cp_finite : parse_float "Unknown-SKU" = None → finite_frame parse_float df →
              all_finite L ∧ all_finite W ∧ all_finite H ∧ all_finite Wt ∧
              all_finite Q ∧ all_finite UC ∧ all_finite SP ∧ all_finite DR;
  cp_len_in : fcol out "len_in" (len_in_of a L);
  cp_wid_in : fcol out "wid_in" (len_in_of a W);
  cp_hgt_in : fcol out "hgt_in" (len_in_of a H);
  cp_weight_kg : fcol out "weight_kg" (weight_kg_of a Wt);
  cp_weight_lb : fcol out "weight_lb" (weight_lb_of a Wt);
  cp_unit_cbm : fcol out "unit_cbm" (unit_cbm_of a L W H);
  cp_unit_cuft :
    fcol out "unit_cuft" (vmuls (unit_cbm_of a L W H) (Fin (lit 353147 10000)));
  cp_total_line_cbm : fcol out "total_line_cbm" (vmul (unit_cbm_of a L W H) Q);
  cp_total_line_weight_kg :
    fcol out "total_line_weight_kg" (vmul (weight_kg_of a Wt) Q);
  cp_dim_weight_lb : fcol out "dim_weight_lb" (dim_weight_of a L W H);
  cp_billable_weight_lb :
    fcol out "billable_weight_lb"
      (vzip_with nanmax (weight_lb_of a Wt) (dim_weight_of a L W H))
}.

(** Pass 2 *)
Definition unit_cost_usd_of (a : assumptions) (UC : vec num n) : vec num n :=
  vmuls UC (Fin (default 1 (fx_rate a))).
Definition purchase_cost_of (a : assumptions) (UC Q : vec num n) : vec num n :=
  vmul (unit_cost_usd_of a UC) Q.
Definition alloc_share_of (a : assumptions) (CBM KG : vec num n) : vec num n :=
  let total_cbm := zero_to_one (series_sum CBM) in
  let total_kg := zero_to_one (series_sum KG) in
  if decide (default "cbm" (allocation_method a) = "weight")
  then vdivs KG total_kg
  else if decide (default "cbm" (allocation_method a) = "hybrid") then
    vadd (smulv (Fin (lit 5 10)) (vdivs CBM total_cbm))
         (smulv (Fin (lit 5 10)) (vdivs KG total_kg))
  else vdivs CBM total_cbm.
Definition allocated_freight_of (a : assumptions) (CBM KG : vec num n)
  : vec num n :=
  smulv (Fin (default 0 (freight_total_spend a))) (alloc_share_of a CBM KG).
Definition allocated_import_fees_of (a : assumptions) (P : vec num n)
  : vec num n :=
  smulv (total_fixed_import_fees a (series_sum P))
        (vdivs P (zero_to_one (series_sum P))).
Definition landed_cost_of (a : assumptions) (UC Q DR CBM KG : vec num n)
  : vec num n :=
  vadd (vadd (vadd (unit_cost_usd_of a UC)
                   (vdiv (allocated_freight_of a CBM KG) Q))
             (vmul (unit_cost_usd_of a UC) (vdivs DR (Fin (lit 100 1)))))
       (vdiv (allocated_import_fees_of a (purchase_cost_of a UC Q)) Q).

Record landed_post (a : assumptions) (out : frame n)
    (UC Q DR CBM KG : vec num n) : Prop := {
  lp_unit_cost_usd : fcol out "unit_cost_usd" (unit_cost_usd_of a UC);
  lp_total_purchase_cost :
    fcol out "total_purchase_cost" (purchase_cost_of a UC Q);
  lp_alloc_share : fcol out "alloc_share" (alloc_share_of a CBM KG);
  lp_allocated_freight_total :
    fcol out "allocated_freight_total" (allocated_freight_of a CBM KG);
  lp_unit_freight_cost :
    fcol out "unit_freight_cost" (vdiv (allocated_freight_of a CBM KG) Q);
  lp_allocated_import_fees :
    fcol out "allocated_import_fees"
      (allocated_import_fees_of a (purchase_cost_of a UC Q));
  lp_unit_import_fees :
    fcol out "unit_import_fees"
      (vdiv (allocated_import_fees_of a (purchase_cost_of a UC Q)) Q);
  lp_landed_cost_unit :
    fcol out "landed_cost_unit" (landed_cost_of a UC Q DR CBM KG)
}.



(** The source column of [sku] is missing: the field is unmapped, or mapped
    to a name the table has no column for. *)
Definition sku_missing (m : mappings) (df : frame n) : Prop :=
  match truthy (map_get m "sku" "sku") with
  | Some u => df !! u = None
  | None => True
  end.

(** No other field is mapped to the key [sku] is mapped to. *)
Definition sku_key_unshared (m : mappings) : Prop :=
  Forall (λ f : string * string, map_get m f.1 f.2 ≠ map_get m "sku" "sku")
    [ ("qty", "qty"); ("unit_cost", "unit_cost"); ("length", "length");
      ("width", "width"); ("height", "height"); ("weight", "weight");
      ("selling_price", "selling_price"); ("duty_rate", "duty_rate") ].


End Columns.


(** ** The arithmetic in IEEE binary64 *)

(** The lines of the first two passes whose results depend on rounding, on
    Rocq's primitive binary64 floats.  A decimal literal denotes the nearest
    double, as it does in Python; the operations round to nearest, ties to
    even.  One [row] holds the five input cells the lines read. *)
Module Doubles.
Local Open Scope float_scope.








(** [Series.sum()]: missing values skipped, summed in row order. *)
Definition series_sum (l : list float) : float :=
  foldl PrimFloat.add 0 (List.filter (λ x, negb (PrimFloat.is_nan x)) l).

(** [if total == 0: total = 1] *)
Definition zero_to_one (total : float) : float :=
  if total =? 0 then 1 else total.





End Doubles.

(** ** The mapping form of the application (app.py) *)

(** The values of the nine select boxes of the form. *)
Record selections : Type := {
  m_sku : string;
  m_qty : string;
  m_cost : string;
  m_len : string;
  m_wid : string;
  m_hgt : string;
  m_wgt : string;
  m_price : string;
  m_duty : string
}.

(** [x if x != '(Select Column)' else None] *)
Definition chosen (sel : string) : option string :=
  if decide (sel = "(Select Column)") then None else Some sel.

(** The dict literal [mapping] of the "Save Mappings" handler, as its items. *)
Definition mapping_items (s : selections) : list (string * option string) :=
  [ ("sku", chosen (m_sku s));
    ("qty", chosen (m_qty s));
    ("unit_cost", chosen (m_cost s));
    ("length", chosen (m_len s));
    ("width", chosen (m_wid s));
    ("height", chosen (m_hgt s));
    ("weight", chosen (m_wgt s));
    ("selling_price", chosen (m_price s));
    ("duty_rate", chosen (m_duty s)) ].

(** [[k for k, v in mapping.items() if v is None and k != 'duty_rate']] *)
Definition missing (mapping : list (string * option string)) : list string :=
  (filter (λ kv, kv.2 = None ∧ kv.1 ≠ "duty_rate") mapping).*1.

Inductive save_outcome : Type :=
  | SaveError (fields : list string)
  | Saved.

(** The "Save Mappings" handler on the session's [mappings]: the new mapping
    is stored only when no required field is missing.  The engine is built
    from the stored mapping and from the table uploaded last. *)
Definition save_mappings (s : selections) (session_mappings : mappings)
  : save_outcome * mappings :=
  let mapping := mapping_items s in
  match missing mapping with
  | [] => (Saved, list_to_map mapping)
  | _ :: _ => (SaveError (missing mapping), session_mappings)
  end.

(** ** Example inputs *)

(** A reader of text cells that reads nothing. *)
Definition no_text : string → option num := λ _, None.

(** The assumptions of the worked scenario. *)
Definition scenario_assumptions : assumptions := {|
  uom_dim := Some "cm"; uom_weight := Some "kg"; dim_divisor := None;
  fx_rate := Some 1; freight_total_spend := Some (lit 1000 1);
  allocation_method := Some "cbm"; mpf_rate := Some (lit 3464 1000000);
  mpf_min := Some (lit 31 1); mpf_max := Some (lit 614 1);
  hmf_rate := Some (lit 125 100000); brokerage_fee := Some (lit 150 1);
  default_referral_pct := Some (lit 15 1); wfs_base_fee := Some (lit 345 100);
  wfs_base_weight_lb := Some 1; wfs_excess_per_lb := Some (lit 40 100);
  wfs_storage_rate := Some (lit 87 100); ads_pct_sales := Some (lit 5 1);
  returns_pct_sales := Some (lit 3 1) |}.

Definition dec (z : Z) (p : positive) : cell := CNum (Fin (lit z p)).

(** One row: 100 units of a 30 x 20 x 10 cm, 0.5 kg item bought at 2.00 and
    sold at 15.00. *)
Definition scenario_table : frame 1 :=
  <["qty" := [# dec 100 1]]> (<["unit_cost" := [# dec 2 1]]>
  (<["length" := [# dec 30 1]]> (<["width" := [# dec 20 1]]>
  (<["height" := [# dec 10 1]]> (<["weight" := [# dec 5 10]]>
  (<["selling_price" := [# dec 15 1]]> ∅)))))).


(** Two rows, the second with quantity 0. *)
Definition zero_qty_table : frame 2 :=
  <["qty" := [# dec 100 1; dec 0 1]]> (<["unit_cost" := [# dec 2 1; dec 2 1]]>
  (<["length" := [# dec 30 1; dec 30 1]]> (<["width" := [# dec 20 1; dec 20 1]]>
  (<["height" := [# dec 10 1; dec 10 1]]> (<["weight" := [# dec 5 10; dec 5 10]]>
  (<["selling_price" := [# dec 15 1; dec 15 1]]> ∅)))))).

(** Two rows with a per-row referral column holding 10 and -20. *)
Definition override_table : frame 2 :=
  <["walmart_referral_pct" := [# dec 10 1; dec (-20) 1]]>
  (<["qty" := [# dec 100 1; dec 100 1]]> (<["unit_cost" := [# dec 2 1; dec 2 1]]>
  (<["length" := [# dec 30 1; dec 30 1]]> (<["width" := [# dec 20 1; dec 20 1]]>
  (<["height" := [# dec 10 1; dec 10 1]]> (<["weight" := [# dec 5 10; dec 5 10]]>
  (<["selling_price" := [# dec 15 1; dec 15 1]]> ∅))))))).




(** The form with the column [Item] selected for SKU and for Quantity, and
    the form with [Item] selected for SKU only.  The duty rate is left
    alone. *)
Definition duplicate_selection : selections := {|
  m_sku := "Item"; m_qty := "Item"; m_cost := "unit_cost"; m_len := "length";
  m_wid := "width"; m_hgt := "height"; m_wgt := "weight";
  m_price := "selling_price"; m_duty := "(Select Column)" |}.
Definition single_selection : selections := {|
  m_sku := "Item"; m_qty := "qty"; m_cost := "unit_cost"; m_len := "length";
  m_wid := "width"; m_hgt := "height"; m_wgt := "weight";
  m_price := "selling_price"; m_duty := "(Select Column)" |}.

(** The mappings the form stores for them. *)
Definition duplicate_mapping : mappings :=
  (save_mappings duplicate_selection ∅).2.
Definition single_mapping : mappings := (save_mappings single_selection ∅).2.

(** The caller's store: the uploaded table at location 1. *)
Definition scenario_store : store := {[ 1%positive := existT 1%nat scenario_table ]}.

(** * Properties *)

(** ** Running statements *)

Section Exec.
Context {n : nat}.
Implicit Types (df : frame n) (c : string).

Lemma bind_run {A B} (k : A → M n B) (m : M n A) df a df' :
  m df = (Ok a, df') → (m ≫= k) df = k a df'.
Proof. intros H. unfold mbind, M_bind, bind. by rewrite H. Qed.

Lemma bind_raise {A B} (k : A → M n B) (m : M n A) df e df' :
  m df = (Raise e, df') → (m ≫= k) df = (Raise e, df').
Proof. intros H. unfold mbind, M_bind, bind. by rewrite H. Qed.

Lemma bind_assoc {A B C} (m : M n A) (f : A → M n B) (g : B → M n C) df :
  ((m ≫= f) ≫= g) df = (m ≫= (λ x, f x ≫= g)) df.
Proof. unfold mbind, M_bind, bind. by destruct (m df) as [[]]. Qed.

Lemma vmap_vmap {A B C} (f : A → B) (g : B → C) (v : vec A n) :
  vmap g (vmap f v) = vmap (g ∘ f) v.
Proof. apply vec_eq; intros i. by rewrite !vlookup_map. Qed.

Lemma vmap_id_ext {A} (f : A → A) (v : vec A n) :
  (∀ x, f x = x) → vmap f v = v.
Proof. intros H. apply vec_eq; intros i. by rewrite vlookup_map. Qed.

Lemma forallb_numeric_CNum (v : vec num n) :
  forallb is_numeric (vec_to_list (vmap CNum v)) = true.
Proof.
  apply forallb_forall. intros x Hx.
  rewrite vec_to_list_map in Hx. by apply in_map_iff in Hx as (y & <- & _).
Qed.

Lemma as_float_CNum (v : vec num n) df : as_float (vmap CNum v) df = (Ok v, df).
Proof.
  unfold as_float. rewrite forallb_numeric_CNum.
  unfold ret. by rewrite vmap_vmap, vmap_id_ext.
Qed.

Lemma getfloat_run df c v : fcol df c v → getfloat c df = (Ok v, df).
Proof.
  intros H. unfold getfloat. erewrite bind_run; [apply as_float_CNum|].
  unfold getitem. by rewrite H.
Qed.

Lemma fcol_float_column df c v : fcol df c v → float_column df c = Some v.
Proof. intros H. unfold float_column. by rewrite (getfloat_run _ _ _ H). Qed.

Lemma bind_getfloat {B} (k : vec num n → M n B) df c v :
  fcol df c v → (getfloat c ≫= k) df = k v df.
Proof. intros H. by apply bind_run, getfloat_run. Qed.

Lemma bind_setfloat {B} (k : unit → M n B) df c v :
  (setfloat c v ≫= k) df = k tt (<[c := vmap CNum v]> df).
Proof. done. Qed.

Lemma bind_setitem {B} (k : unit → M n B) df c v :
  (setitem c v ≫= k) df = k tt (<[c := v]> df).
Proof. done. Qed.

Lemma setfloat_run df c v : setfloat c v df = (Ok tt, <[c := vmap CNum v]> df).
Proof. done. Qed.

Lemma fcol_insert_eq df c v : fcol (<[c := vmap CNum v]> df) c v.
Proof. apply lookup_insert_eq. Qed.

Lemma fcol_insert_ne df c c' w v :
  c ≠ c' → fcol df c' v → fcol (<[c := w]> df) c' v.
Proof. intros ? H. unfold fcol. by rewrite lookup_insert_ne. Qed.

Lemma fcol_inj df c v w : fcol df c v → fcol df c w → v = w.
Proof.
  unfold fcol. intros -> [= H]. apply vec_eq. intros i.
  apply (f_equal (λ u, u !!! i)) in H. rewrite !vlookup_map in H. congruence.
Qed.

(** *** Columns a statement leaves alone *)

Lemma preserves_bind {A B} W (m : M n A) (k : A → M n B) :
  preserves W m → (∀ a, preserves W (k a)) → preserves W (m ≫= k).
Proof.
  intros Hm Hk df x Hx. unfold mbind, M_bind, bind.
  specialize (Hm df x Hx). destruct (m df) as [[a|e] df']; simpl in *.
  - by rewrite Hk.
  - done.
Qed.

Lemma preserves_ret {A} W (a : A) : preserves W (mret a : M n A).
Proof. by intros df x Hx. Qed.

Lemma preserves_in_columns W c : preserves W (in_columns c : M n bool).
Proof. by intros df x Hx. Qed.

Lemma preserves_getitem W c : preserves W (getitem c : M n _).
Proof. intros df x Hx. unfold getitem. by destruct (df !! c). Qed.

Lemma preserves_as_float W (v : vec cell n) : preserves W (as_float v).
Proof. intros df x Hx. unfold as_float. by case_match. Qed.

Lemma preserves_getfloat W c : preserves W (getfloat c : M n _).
Proof.
  apply preserves_bind; [apply preserves_getitem|].
  intros; apply preserves_as_float.
Qed.

Lemma preserves_setitem W c (v : vec cell n) : c ∈ W → preserves W (setitem c v).
Proof.
  intros Hc df x Hx. simpl. apply lookup_insert_ne. by intros ->.
Qed.

Lemma preserves_setfloat W c (v : vec num n) : c ∈ W → preserves W (setfloat c v).
Proof. apply preserves_setitem. Qed.

Lemma preserves_for_each {A} W (l : list A) (body : A → M n unit) :
  (∀ x, x ∈ l → preserves W (body x)) → preserves W (for_each l body).
Proof.
  induction l as [|x l IH]; intros H; simpl.
  - apply preserves_ret.
  - apply preserves_bind; [apply H; left|].
    intros _. apply IH. intros y Hy. apply H. by right.
Qed.

Lemma preserves_fcol {A} W (m : M n A) df c v :
  preserves W m → c ∉ W → fcol df c v → fcol (m df).2 c v.
Proof. intros Hm Hc H. unfold fcol. by rewrite Hm. Qed.

End Exec.

(** [solve_fcol] reads a column off a frame built by insertions; [step]
    runs the next read or write of a pass. *)
Ltac solve_fcol :=
  repeat first [ apply fcol_insert_eq | apply fcol_insert_ne; [discriminate |] ];
  eassumption.

Ltac step :=
  first [ rewrite bind_assoc
        | rewrite bind_setfloat
        | rewrite bind_setitem
        | erewrite bind_getfloat by solve_fcol ].

(** Resolve the tests [decide P] for which [P] or [¬ P] is a hypothesis. *)
Ltac rew_decide :=
  repeat match goal with
  | H : ?P |- context [decide ?P] => rewrite (decide_True _ _ H)
  | H : ¬ ?P |- context [decide ?P] => rewrite (decide_False _ _ H)
  end.

Ltac solve_elem :=
  by repeat first [ apply list_elem_of_here | apply list_elem_of_further ].

Ltac solve_preserves :=
  repeat first
    [ apply preserves_getfloat
    | apply preserves_in_columns
    | apply preserves_ret
    | apply preserves_setfloat; solve_elem
    | apply preserves_setitem; solve_elem
    | apply preserves_bind; [| intros ?]
    | case_decide
    | case_match ].

(** ** The passes, one by one *)

Section Passes.
Context {n : nat} (parse : string → option num).
Implicit Types (df : frame n).

(** *** The targets of the mapping and the columns a pass leaves alone *)

Lemma dict_set_values {K V} `{EqDecision K} (k : K) (v : V) d x :
  x ∈ dict_set k v d → x.2 = v ∨ x ∈ d.
Proof.
  induction d as [|[k' v'] d IH]; simpl.
  - intros ->%list_elem_of_singleton. by left.
  - case_decide; intros [->|Hx]%elem_of_cons; try (by left).
    + right. by right.
    + right. by left.
    + destruct (IH Hx); [by left|]. right. by right.
Qed.

Lemma dict_display_values {K V} `{EqDecision K} (items : list (K * V)) x :
  x ∈ dict_display items → x.2 ∈ items.*2.
Proof.
  unfold dict_display.
  cut (∀ d, x ∈ foldl (λ d kv, dict_set kv.1 kv.2 d) d items →
            x.2 ∈ items.*2 ∨ x ∈ d).
  { intros H' Hx. destruct (H' _ Hx) as [|Hd]; [done|].
    by apply elem_of_nil in Hd. }
  induction items as [|[k v] items IH]; simpl; intros d Hx.
  - by right.
  - destruct (IH _ Hx) as [?|Hd].
    + left. by right.
    + apply dict_set_values in Hd as [->|?]; [left; by left | by right].
Qed.

Lemma target_cols_internal m x : x ∈ target_cols m → x.2 ∈ canonical.
Proof. intros H. apply dict_display_values in H. exact H. Qed.

Lemma preserves_fill_default W ic :
  ic ∈ W → preserves (n:=n) W (fill_default ic).
Proof. intros. unfold fill_default. case_decide; by apply preserves_setitem. Qed.

Lemma preserves_map_column W item :
  item.2 ∈ W → preserves (n:=n) W (map_column item).
Proof.
  destruct item as [u ic]. simpl. intros Hic. destruct (truthy u).
  - apply preserves_bind; [apply preserves_in_columns|]. intros [].
    + apply preserves_bind; [apply preserves_getitem|].
      intros. by apply preserves_setitem.
    + by apply preserves_fill_default.
  - by apply preserves_fill_default.
Qed.

Lemma preserves_safe_numeric W c d :
  c ∈ W → preserves (n:=n) W (_safe_numeric parse c d).
Proof.
  intros Hc. unfold _safe_numeric.
  apply preserves_bind; [apply preserves_in_columns|]. intros b.
  apply preserves_bind.
  { destruct b; [apply preserves_ret | by apply preserves_setitem]. }
  intros _. apply preserves_bind; [apply preserves_getitem|].
  intros. by apply preserves_setfloat.
Qed.

Lemma preserves_run_conversions m a :
  preserves (n:=n) written1 (run_conversions parse m a).
Proof.
  unfold run_conversions.
  apply preserves_bind.
  { apply preserves_for_each. intros x Hx. apply preserves_map_column.
    apply target_cols_internal in Hx. unfold written1.
    apply elem_of_app. by left. }
  intros _. apply preserves_bind.
  { apply preserves_for_each. intros x Hx. apply preserves_safe_numeric.
    revert x Hx. apply Forall_forall. repeat constructor; solve_elem. }
  intros _. solve_preserves.
Qed.

Lemma preserves_calculate_landed_cost a :
  preserves (n:=n) written2 (calculate_landed_cost a).
Proof. unfold calculate_landed_cost. solve_preserves. Qed.

Lemma preserves_calculate_walmart_economics a :
  preserves (n:=n) written3 (calculate_walmart_economics a).
Proof. unfold calculate_walmart_economics. solve_preserves. Qed.

(** *** The two loops of the Normalizer *)

Lemma for_each_inv {A} (I : frame n → Prop) (l : list A)
    (body : A → M n unit) :
  (∀ x df, I df → ∃ df', body x df = (Ok tt, df') ∧ I df') →
  ∀ df, I df → ∃ df', for_each l body df = (Ok tt, df') ∧ I df'.
Proof.
  intros Hb. induction l as [|x l IH]; intros df HI; simpl.
  - by exists df.
  - destruct (Hb x df HI) as (df1 & Hx & HI1).
    destruct (IH df1 HI1) as (df2 & Hl & HI2).
    exists df2. split; [|done]. by erewrite bind_run.
Qed.

Lemma finite_frame_insert df c (v : vec cell n) :
  finite_frame parse df → Forall (cell_finite parse) (vec_to_list v) →
  finite_frame parse (<[c := v]> df).
Proof. intros. by apply map_Forall_insert_2. Qed.

Lemma finite_frame_lookup df c (v : vec cell n) :
  finite_frame parse df → df !! c = Some v →
  Forall (cell_finite parse) (vec_to_list v).
Proof. intros H Hc. exact (H c v Hc). Qed.

Lemma fill_default_run ic df :
  ∃ x, fill_default ic df = (Ok tt, <[ic := vreplicate n x]> df) ∧
       (parse "Unknown-SKU" = None → cell_finite parse x).
Proof.
  unfold fill_default. case_decide; eexists; (split; [reflexivity|]).
  - intros Hph. unfold cell_finite. simpl. by rewrite Hph.
  - intros _. exact I.
Qed.

Lemma map_column_run item df :
  ∃ df', map_column item df = (Ok tt, df') ∧
         (parse "Unknown-SKU" = None →
          finite_frame parse df → finite_frame parse df').
Proof.
  destruct item as [u ic]. simpl.
  assert (Hfill : ∃ df', fill_default ic df = (Ok tt, df') ∧
            (parse "Unknown-SKU" = None →
             finite_frame parse df → finite_frame parse df')).
  { destruct (fill_default_run ic df) as (x & -> & Hx).
    eexists; split; [done|].
    intros Hph Hf. apply finite_frame_insert; [done|].
    rewrite vec_to_list_replicate. by apply Forall_replicate, Hx. }
  destruct (truthy u) as [s|]; [|done].
  erewrite bind_run by reflexivity. unfold has_column.
  case_bool_decide as Hs; [|done].
  destruct Hs as [v Hv].
  erewrite bind_run by (unfold getitem; rewrite Hv; reflexivity).
  eexists; split; [done|]. intros _ Hf. apply finite_frame_insert; [done|].
  by eapply finite_frame_lookup.
Qed.

Lemma safe_numeric_run c df :
  _safe_numeric parse c (Fin 0) df
  = (Ok tt, <[c := vmap CNum (coerced parse df c)]> df).
Proof.
  unfold _safe_numeric, coerced.
  erewrite bind_run by reflexivity. unfold has_column.
  case_bool_decide as Hs.
  - destruct Hs as [v Hv].
    erewrite bind_run by reflexivity.
    erewrite bind_run by (unfold getitem; rewrite Hv; reflexivity).
    by rewrite Hv.
  - apply eq_None_not_Some in Hs.
    erewrite bind_run by reflexivity.
    erewrite bind_run
      by (unfold getitem; rewrite lookup_insert_eq; reflexivity).
    rewrite setfloat_run. by rewrite insert_insert_eq, Hs.
Qed.

Lemma fillna_not_nan x : is_nan (fillna (Fin 0) x) = false.
Proof. by destruct x. Qed.

Lemma coerced_no_nan df c : no_nan (coerced parse df c).
Proof. intros i. unfold coerced. rewrite vlookup_map. apply fillna_not_nan. Qed.

Lemma to_numeric_finite x :
  cell_finite parse x → is_finite (fillna (Fin 0) (to_numeric parse x)) = true.
Proof. unfold cell_finite. by destruct (to_numeric parse x). Qed.

Lemma coerced_finite df c :
  finite_frame parse df → all_finite (coerced parse df c).
Proof.
  intros Hf i. unfold coerced. rewrite vlookup_map. apply to_numeric_finite.
  destruct (df !! c) as [v|] eqn:Hc; simpl.
  - eapply Forall_vlookup_1, finite_frame_lookup; eauto.
  - by rewrite vlookup_replicate.
Qed.

Lemma finite_frame_coerced df c :
  finite_frame parse df →
  finite_frame parse (<[c := vmap CNum (coerced parse df c)]> df).
Proof.
  intros Hf. apply finite_frame_insert; [done|].
  apply Forall_vlookup. intros i. rewrite vlookup_map.
  pose proof (coerced_finite df c Hf i) as Hi. unfold cell_finite. simpl.
  by destruct (coerced parse df c !!! i).
Qed.

Lemma enforce_numeric_run (l : list string) df :
  ∃ df', for_each l (λ c, _safe_numeric parse c (Fin 0)) df = (Ok tt, df') ∧
         (finite_frame parse df → finite_frame parse df') ∧
         ∀ c, c ∈ l →
              ∃ v, fcol df' c v ∧ no_nan v ∧
                   (finite_frame parse df → all_finite v).
Proof.
  revert df. induction l as [|c0 l IH]; intros df; simpl.
  - exists df. split_and!; [done..|]. by intros c ?%elem_of_nil.
  - destruct (IH (<[c0 := vmap CNum (coerced parse df c0)]> df))
      as (df' & Hrun & Hfin & Hcols).
    exists df'. split_and!.
    + erewrite bind_run by apply safe_numeric_run. done.
    + intros Hf. by apply Hfin, finite_frame_coerced.
    + intros c [->|Hc]%elem_of_cons.
      * destruct (decide (c0 ∈ l)) as [Hin|Hnin].
        { destruct (Hcols c0 Hin) as (v & ? & ? & Hv).
          exists v. split_and!; [done..|].
          intros Hf. by apply Hv, finite_frame_coerced. }
        exists (coerced parse df c0). split_and!.
        -- pose proof (preserves_fcol l
                         (for_each l (λ c, _safe_numeric parse c (Fin 0)))
                         (<[c0 := vmap CNum (coerced parse df c0)]> df)
                         c0 (coerced parse df c0)) as Hp.
           rewrite Hrun in Hp. apply Hp; [|done|apply fcol_insert_eq].
           apply preserves_for_each. intros x Hx.
           by apply preserves_safe_numeric.
        -- apply coerced_no_nan.
        -- apply coerced_finite.
      * destruct (Hcols c Hc) as (v & ? & ? & Hv).
        exists v. split_and!; [done..|].
        intros Hf. by apply Hv, finite_frame_coerced.
Qed.

(** The two loops at the head of [run_conversions]. *)
Lemma normalise_run m df :
  ∃ df1 df2,
    for_each (target_cols m) map_column df = (Ok tt, df1) ∧
    for_each numeric_cols (λ c, _safe_numeric parse c (Fin 0)) df1
    = (Ok tt, df2) ∧
    ∀ c, c ∈ numeric_cols →
         ∃ v, fcol df2 c v ∧ no_nan v ∧
              (parse "Unknown-SKU" = None → finite_frame parse df →
               all_finite v).
Proof.
  destruct (for_each_inv
              (λ df1, parse "Unknown-SKU" = None → finite_frame parse df →
                      finite_frame parse df1)
              (target_cols m) map_column) with (df := df) as (df1 & H1 & Hf1);
    [|done|].
  { intros x d Hd. destruct (map_column_run x d) as (d' & ? & ?).
    exists d'. split; [done|]. tauto. }
  destruct (enforce_numeric_run numeric_cols df1) as (df2 & H2 & _ & Hcols).
  exists df1, df2. split_and!; [done..|].
  intros c Hc. destruct (Hcols c Hc) as (v & ? & ? & Hv).
  exists v. split_and!; [done..|]. tauto.
Qed.

(** *** Each pass returns and writes the columns of its postcondition *)

Lemma run_conversions_spec m a df :
  ∃ out L W H Wt Q UC SP DR,
    run_conversions parse m a df = (Ok tt, out) ∧
    conversions_post parse a df out L W H Wt Q UC SP DR.
Proof.
  destruct (normalise_run m df) as (df1 & df2 & H1 & H2 & Hcols).
  destruct (Hcols "length" ltac:(solve_elem)) as (L & HL & HLn & HLf).
  destruct (Hcols "width" ltac:(solve_elem)) as (W & HW & HWn & HWf).
  destruct (Hcols "height" ltac:(solve_elem)) as (H & HH & HHn & HHf).
  destruct (Hcols "weight" ltac:(solve_elem)) as (Wt & HWt & HWtn & HWtf).
  destruct (Hcols "qty" ltac:(solve_elem)) as (Q & HQ & HQn & HQf).
  destruct (Hcols "unit_cost" ltac:(solve_elem)) as (UC & HUC & HUCn & HUCf).
  destruct (Hcols "selling_price" ltac:(solve_elem))
    as (SP & HSP & HSPn & HSPf).
  destruct (Hcols "duty_rate_pct" ltac:(solve_elem))
    as (DR & HDR & HDRn & HDRf).
  clear Hcols.
  destruct (decide (default "cm" (uom_dim a) = "in")) as [Hd|Hd];
    destruct (decide (default "kg" (uom_weight a) = "lb")) as [Hw|Hw].
  all: eexists _, L, W, H, Wt, Q, UC, SP, DR.
  all: split;
    [ unfold run_conversions;
      erewrite bind_run by exact H1; erewrite bind_run by exact H2;
      rew_decide;
      repeat step; apply setfloat_run
    | constructor;
      unfold unit_cbm_of, dim_weight_of, len_m_of, len_in_of, weight_kg_of,
        weight_lb_of;
      rew_decide;
      try solve_fcol; [ done | tauto ] ].
Qed.

Lemma calculate_landed_cost_spec a df UC Q DR CBM KG :
  fcol df "unit_cost" UC → fcol df "qty" Q → fcol df "duty_rate_pct" DR →
  fcol df "total_line_cbm" CBM → fcol df "total_line_weight_kg" KG →
  ∃ out, calculate_landed_cost a df = (Ok tt, out) ∧
         landed_post a out UC Q DR CBM KG.
Proof.
  intros HUC HQ HDR HCBM HKG.
  destruct (decide (default "cbm" (allocation_method a) = "weight"))
    as [Hw|Hw];
    [|destruct (decide (default "cbm" (allocation_method a) = "hybrid"))
        as [Hh|Hh]].
  all: eexists; split;
    [ unfold calculate_landed_cost;
      repeat first [step | progress rew_decide]; apply setfloat_run
    | constructor;
      unfold landed_cost_of, allocated_import_fees_of, allocated_freight_of,
        alloc_share_of, purchase_cost_of, unit_cost_usd_of;
      rew_decide; solve_fcol ].
Qed.

Lemma bind_in_columns {B} (k : bool → M n B) df c :
  (in_columns c ≫= k) df = k (has_column c df) df.
Proof. done. Qed.




End Passes.

(** ** The passes in sequence *)

Section Whole.
Context {n : nat} (parse : string → option num).
Implicit Types (df out : frame n).

Lemma not_elem_of_concrete (k : string) (l : list string) :
  bool_decide (k ∉ l) = true → k ∉ l.
Proof. apply bool_decide_eq_true_1. Qed.

Lemma written1_not_written2 k : k ∈ written1 → k ∉ written2.
Proof.
  revert k. apply Forall_forall.
  repeat constructor; apply not_elem_of_concrete; reflexivity.
Qed.

Lemma written1_not_written3 k : k ∈ written1 → k ∉ written3.
Proof.
  revert k. apply Forall_forall.
  repeat constructor; apply not_elem_of_concrete; reflexivity.
Qed.

Lemma written2_not_written3 k : k ∈ written2 → k ∉ written3.
Proof.
  revert k. apply Forall_forall.
  repeat constructor; apply not_elem_of_concrete; reflexivity.
Qed.

Lemma fcol_transfer df df' c v :
  df' !! c = df !! c → fcol df c v → fcol df' c v.
Proof. unfold fcol. by intros ->. Qed.

Lemma conversions_post_transfer a df out out' L W H Wt Q UC SP DR :
  (∀ k, k ∈ written1 → out' !! k = out !! k) →
  conversions_post parse a df out L W H Wt Q UC SP DR →
  conversions_post parse a df out' L W H Wt Q UC SP DR.
Proof.
  intros Hsame []. constructor; try done.
  all: eapply fcol_transfer; [apply Hsame; solve_elem | done].
Qed.

Lemma landed_post_transfer a out out' UC Q DR CBM KG :
  (∀ k, k ∈ written2 → out' !! k = out !! k) →
  landed_post a out UC Q DR CBM KG → landed_post a out' UC Q DR CBM KG.
Proof.
  intros Hsame []. constructor.
  all: eapply fcol_transfer; [apply Hsame; solve_elem | done].
Qed.

(** The first two passes never raise. *)
Lemma landed_run m a df :
  ∃ out1 out2 L W H Wt Q UC SP DR,
    run_conversions parse m a df = (Ok tt, out1) ∧
    calculate_landed_cost a out1 = (Ok tt, out2) ∧
    conversions_post parse a df out2 L W H Wt Q UC SP DR ∧
    landed_post a out2 UC Q DR
      (vmul (unit_cbm_of a L W H) Q) (vmul (weight_kg_of a Wt) Q) ∧
    out2 !! "walmart_referral_pct" = df !! "walmart_referral_pct".
Proof.
  destruct (run_conversions_spec parse m a df)
    as (out1 & L & W & H & Wt & Q & UC & SP & DR & Hrun1 & Hpost1).
  destruct (calculate_landed_cost_spec a out1 UC Q DR
              (vmul (unit_cbm_of a L W H) Q) (vmul (weight_kg_of a Wt) Q))
    as (out2 & Hrun2 & Hpost2); try apply Hpost1.
  exists out1, out2, L, W, H, Wt, Q, UC, SP, DR. split_and!; try done.
  - eapply conversions_post_transfer; [|done].
    intros k Hk. pose proof (preserves_calculate_landed_cost (n:=n) a out1 k) as Hp.
    rewrite Hrun2 in Hp. by apply Hp, written1_not_written2.
  - pose proof (preserves_calculate_landed_cost (n:=n) a out1 "walmart_referral_pct") as Hp2.
    pose proof (preserves_run_conversions parse m a df "walmart_referral_pct") as Hp1.
    rewrite Hrun2 in Hp2. rewrite Hrun1 in Hp1. simpl in *.
    rewrite Hp2, Hp1; [done| |]; apply not_elem_of_concrete; reflexivity.
Qed.

(** The table the engine leaves behind, whether or not the third pass
    raises. *)
Lemma run_engine_landed m a df :
  ∃ L W H Wt Q UC SP DR,
    conversions_post parse a df (run_engine parse m a df).2 L W H Wt Q UC SP DR ∧
    landed_post a (run_engine parse m a df).2 UC Q DR
      (vmul (unit_cbm_of a L W H) Q) (vmul (weight_kg_of a Wt) Q).
Proof.
  destruct (landed_run m a df)
    as (out1 & out2 & L & W & H & Wt & Q & UC & SP & DR & H1 & H2 & Hc & Hl & _).
  exists L, W, H, Wt, Q, UC, SP, DR.
  unfold run_engine. erewrite bind_run by exact H1. erewrite bind_run by exact H2.
  pose proof (preserves_calculate_walmart_economics (n:=n) a out2) as Hp.
  split.
  - eapply conversions_post_transfer; [|done].
    intros k Hk. by apply Hp, written1_not_written3.
  - eapply landed_post_transfer; [|done].
    intros k Hk. by apply Hp, written2_not_written3.
Qed.

End Whole.

(** ** Floats *)

Section NumFacts.
Implicit Types (a b c : Qc) (x y : num).

Lemma ltb_Fin a b : ltb (Fin a) (Fin b) = true ↔ a < b.
Proof.
  unfold ltb; simpl. rewrite Qclt_alt. destruct (a ?= b); split; congruence.
Qed.

Lemma leb_Fin a b : leb (Fin a) (Fin b) = true ↔ a ≤ b.
Proof.
  unfold leb; simpl. rewrite Qcle_alt. destruct (a ?= b); split; congruence.
Qed.

Lemma ltb_Fin_false a b : ltb (Fin a) (Fin b) = false ↔ b ≤ a.
Proof.
  rewrite <- not_true_iff_false, ltb_Fin. split.
  - apply Qcnot_lt_le.
  - apply Qcle_not_lt.
Qed.




(** The clamp of the Merchandise Processing Fee. *)
Lemma clamp_below x mn mx :
  mn ≤ mx → ltb x (Fin mn) = true → py_min (py_max x (Fin mn)) (Fin mx) = Fin mn.
Proof.
  intros Hle Hx. unfold py_max, gtb. rewrite Hx.
  unfold py_min. by rewrite (proj2 (ltb_Fin_false mx mn)).
Qed.

Lemma clamp_above x mn mx :
  mn ≤ mx → gtb x (Fin mx) = true → py_min (py_max x (Fin mn)) (Fin mx) = Fin mx.
Proof.
  intros Hle Hx. unfold gtb in Hx. unfold py_max, gtb.
  assert (ltb x (Fin mn) = false) as ->.
  { destruct x as [q| | |]; try done.
    apply ltb_Fin in Hx. apply ltb_Fin_false.
    apply Qclt_le_weak. by eapply Qcle_lt_trans. }
  unfold py_min. by rewrite Hx.
Qed.

Lemma clamp_between x mn mx :
  leb (Fin mn) x = true → leb x (Fin mx) = true →
  py_min (py_max x (Fin mn)) (Fin mx) = x.
Proof.
  intros H1 H2. destruct x as [q| | |]; try done.
  apply leb_Fin in H1, H2.
  unfold py_max, gtb. rewrite (proj2 (ltb_Fin_false q mn)) by done.
  unfold py_min. by rewrite (proj2 (ltb_Fin_false mx q)).
Qed.



End NumFacts.

Section Sums.
Context {n : nat}.
Implicit Types (a b c : Qc) (x y : num) (v : vec num n) (w : vec Qc n).




Lemma all_finite_Fin w : all_finite (vmap Fin w).
Proof. intros i. by rewrite vlookup_map. Qed.







End Sums.

(** ** The claims of the specification *)

Section C1.
Context {n : nat} (parse : string → option num).
Implicit Types (v w : vec num n).








End C1.

Section Claims.
Context {n : nat} (parse : string → option num).
Implicit Types (df out : frame n).

(** *** Merchandise Processing Fee *)

(** C2. The table has one Merchandise Processing Fee.  The column
    [total_purchase_cost] is the unit cost in USD times the quantity, row by
    row; the invoice value is the sum of that column; [total_mpf] is
    evaluated once, on that sum; and the import fees of every row are the
    one total of MPF, HMF and brokerage times the row's value share, so no
    row has an MPF of its own.  With [mpf_min ≤ mpf_max], [total_mpf] is
    [mpf_min] when the invoice value times [mpf_rate] is below [mpf_min],
    [mpf_max] when it is above [mpf_max], and the product itself in
    between. *)
Theorem mpf_once_on_aggregate m a df :
  (∃ UC Q P AI,
     float_column (run_engine parse m a df).2 "unit_cost" = Some UC ∧
     float_column (run_engine parse m a df).2 "qty" = Some Q ∧
     float_column (run_engine parse m a df).2 "total_purchase_cost" = Some P ∧
     float_column (run_engine parse m a df).2 "allocated_import_fees" = Some AI ∧
     P = vmul (vmuls UC (Fin (default 1 (fx_rate a)))) Q ∧
     AI = smulv (total_mpf a (series_sum P)
                 + series_sum P * Fin (default (lit 125 100000) (hmf_rate a))
                 + Fin (default 0 (brokerage_fee a)))%num
                (vdivs P (zero_to_one (series_sum P))) ∧
     total_mpf a (series_sum P)
     = py_min (py_max (series_sum P
                       * Fin (default (lit 3464 1000000) (mpf_rate a)))%num
                      (Fin (default (lit 31 1) (mpf_min a))))
              (Fin (default (lit 614 1) (mpf_max a)))) ∧
  (default (lit 31 1) (mpf_min a) ≤ default (lit 614 1) (mpf_max a) →
   ∀ total_invoice_val : num,
     let x := (total_invoice_val
               * Fin (default (lit 3464 1000000) (mpf_rate a)))%num in
     (ltb x (Fin (default (lit 31 1) (mpf_min a))) = true →
      total_mpf a total_invoice_val = Fin (default (lit 31 1) (mpf_min a))) ∧
     (gtb x (Fin (default (lit 614 1) (mpf_max a))) = true →
      total_mpf a total_invoice_val = Fin (default (lit 614 1) (mpf_max a))) ∧
     (leb (Fin (default (lit 31 1) (mpf_min a))) x = true →
      leb x (Fin (default (lit 614 1) (mpf_max a))) = true →
      total_mpf a total_invoice_val = x)).
Proof.
  split.
  - destruct (run_engine_landed parse m a df)
      as (L & W & H & Wt & Q & UC & SP & DR & Hc & Hl).
    exists UC, Q, (purchase_cost_of a UC Q),
           (allocated_import_fees_of a (purchase_cost_of a UC Q)).
    split_and!;
      [apply fcol_float_column, Hc|apply fcol_float_column, Hc
      |apply fcol_float_column, Hl|apply fcol_float_column, Hl
      |done|done|done].
  - intros Hle v x. unfold total_mpf. fold x. split_and!.
    + by apply clamp_below.
    + by apply clamp_above.
    + by apply clamp_between.
Qed.

(** *** Fulfillment fee *)



(** *** Referral fee *)


End Claims.

Section Claims2.
Context {n : nat} (parse : string → option num).
Implicit Types (df out : frame n).

(** *** Breakeven price *)

Lemma div_zero_not_finite x : is_finite (x / Fin 0)%num = false.
Proof.
  destruct x as [q| | |]; try done.
  unfold div. rewrite decide_True by done. by destruct (sgn q).
Qed.



(** *** Unit systems *)



End Claims2.

(** *** The caller's table *)

Section C9.
Variable parse : string → option num.

Lemma call_other body (self : UnitEconomicsEngine) (σ : store) (l : loc) :
  l ≠ self_df self → (call body self σ).2 !! l = σ !! l.
Proof. intros Hl. unfold call. simpl. by rewrite lookup_insert_ne. Qed.

Lemma init_fresh (l : loc) m a (σ : store) :
  is_Some (σ !! l) → self_df (__init__ l m a σ).1 ≠ l.
Proof.
  intros Hl Heq. simpl in Heq.
  apply (is_fresh (dom σ)). rewrite Heq. by apply elem_of_dom.
Qed.

(** C9. The constructor copies the caller's table to a new location and the
    passes update only the copy: after [run_calculations], whether it
    returned or raised, the caller's location holds the table it held
    before, and the result is another location. *)
Theorem caller_table_unchanged (σ : store) (l : loc) (t : table) m a :
  σ !! l = Some t →
  (run_calculations parse l m a σ).2 !! l = Some t ∧
  ∀ r, (run_calculations parse l m a σ).1 = Ok r → r ≠ l.
Proof.
  intros Hl.
  pose proof (init_fresh l m a σ (mk_is_Some _ _ Hl)) as Hfresh.
  unfold run_calculations, __init__ in *. simpl in Hfresh. cbv zeta iota beta.
  set (engine := {| self_df := fresh (dom σ); self_map := m;
                    self_assumptions := a; self_logs := [] |}).
  set (σ0 := <[fresh (dom σ) := σ !!! l]> σ).
  assert (Hσ0 : σ0 !! l = Some t).
  { subst σ0. by rewrite lookup_insert_ne. }
  assert (Hother : ∀ body σ', (call body engine σ').2 !! l = σ' !! l).
  { intros. apply call_other. intros ->. by apply Hfresh. }
  clearbody σ0.
  split.
  - repeat match goal with
    | |- context [call ?b engine ?s] =>
        let H := fresh "Hc" in
        pose proof (Hother b s) as H;
        destruct (call b engine s) as [[[]|?] ?]; simpl in H
    end; simpl; congruence.
  - intros r Hr.
    repeat match goal with
    | H : context [call ?b engine ?s] |- _ =>
        destruct (call b engine s) as [[[]|?] ?]
    end; simplify_eq/=. unfold get_results. intros Heq. by apply Hfresh.
Qed.
End C9.

(** ** What the passes guarantee besides *)

Section Parts.
Context {n : nat} (parse : string → option num).
Implicit Types (df out : frame n).

(** A cell that is missing or that [pd.to_numeric] cannot read becomes 0.0
    in a numeric column. *)
Lemma coerce_missing : fillna (Fin 0) (to_numeric parse (CNum NaN)) = Fin 0.
Proof. reflexivity. Qed.

Lemma coerce_unreadable s :
  parse s = None → fillna (Fin 0) (to_numeric parse (CStr s)) = Fin 0.
Proof. intros Hs. simpl. by rewrite Hs. Qed.

(** The Normalizer returns on every table and mapping, and leaves the
    eight numeric canonical columns as float columns without missing
    values. *)
Lemma run_conversions_total m a df :
  ∃ out, run_conversions parse m a df = (Ok tt, out) ∧
         ∀ c, c ∈ numeric_cols → ∃ v, float_column out c = Some v ∧ no_nan v.
Proof.
  destruct (run_conversions_spec parse m a df)
    as (out & L & W & H & Wt & Q & UC & SP & DR & Hrun & Hp).
  exists out. split; [done|].
  destruct (cp_no_nan _ _ _ _ _ _ _ _ _ _ _ _ Hp) as (? & ? & ? & ? & ? & ? & ? & ?).
  intros c Hc. unfold numeric_cols in Hc.
  repeat (apply elem_of_cons in Hc as [->|Hc];
          [eexists; split; [apply fcol_float_column, Hp|done]|]).
  by apply elem_of_nil in Hc.
Qed.

Lemma dict_display_head {K V} `{EqDecision K} (k : K) (v : V) items :
  (∀ x, x ∈ items → x.1 ≠ k) →
  dict_display ((k, v) :: items) = (k, v) :: dict_display items.
Proof.
  intros Hk. unfold dict_display. simpl.
  cut (∀ d, foldl (λ d kv, dict_set kv.1 kv.2 d) ((k, v) :: d) items
            = (k, v) :: foldl (λ d kv, dict_set kv.1 kv.2 d) d items).
  { intros Hcut. apply Hcut. }
  induction items as [|[k' v'] items IH]; intros d; [done|].
  simpl. rewrite decide_False.
  - apply IH. intros x Hx. apply Hk. by right.
  - intros ->. by apply (Hk (k', v')); [left|].
Qed.

Lemma for_each_cons {A} (x : A) l (body : A → M n unit) :
  for_each (x :: l) body = (body x;; for_each l body).
Proof. done. Qed.

Lemma target_cols_sku_first m :
  sku_key_unshared m →
  ∃ rest, target_cols m = (map_get m "sku" "sku", "sku") :: rest ∧
          ∀ x, x ∈ rest → x.2 ∈ numeric_cols.
Proof.
  intros Hun. unfold target_cols. eexists. split.
  - apply dict_display_head. unfold sku_key_unshared in Hun.
    repeat (apply Forall_cons in Hun as [? Hun]).
    intros x Hx. repeat (apply elem_of_cons in Hx as [->|Hx]; [done|]).
    by apply elem_of_nil in Hx.
  - intros x Hx%dict_display_values. exact Hx.
Qed.

Lemma map_column_missing_sku m df :
  sku_missing m df →
  map_column (map_get m "sku" "sku", "sku") df
  = (Ok tt, <["sku" := vreplicate n (CStr "Unknown-SKU")]> df).
Proof.
  unfold sku_missing, map_column. destruct (truthy _) as [u|]; [|done].
  intros Hu. erewrite bind_run by reflexivity.
  unfold has_column. rewrite bool_decide_eq_false_2; [done|].
  rewrite Hu. by intros [].
Qed.

(** A missing [sku] column is filled with the placeholder when no other
    field shares the key of [sku] in [target_cols]. *)
Lemma missing_sku_placeholder m a df :
  sku_missing m df → sku_key_unshared m →
  (run_conversions parse m a df).2 !! "sku"
  = Some (vreplicate n (CStr "Unknown-SKU")).
Proof.
  intros Hmiss Hun.
  destruct (target_cols_sku_first m Hun) as (rest & Htc & Hrest).
  destruct (for_each_inv (λ _, True) rest (map_column (n:=n)))
    with (df := <["sku" := vreplicate n (CStr "Unknown-SKU")]> df)
    as (df1 & Hloop & _); [|done|].
  { intros x d _. destruct (map_column_run parse x d) as (d' & ? & _). by exists d'. }
  assert (Hsku : df1 !! "sku" = Some (vreplicate n (CStr "Unknown-SKU"))).
  { pose proof (preserves_for_each (n:=n) numeric_cols rest map_column) as Hp.
    specialize (Hp (λ x Hx, preserves_map_column _ x (Hrest x Hx))
                   (<["sku" := vreplicate n (CStr "Unknown-SKU")]> df) "sku").
    rewrite Hloop in Hp. simpl in Hp. rewrite Hp.
    - apply lookup_insert_eq.
    - apply not_elem_of_concrete. reflexivity. }
  unfold run_conversions. rewrite Htc, for_each_cons.
  rewrite bind_assoc.
  erewrite bind_run by (by apply map_column_missing_sku).
  erewrite bind_run by exact Hloop.
  match goal with |- (?K df1).2 !! _ = _ =>
    assert (Hp : preserves (n:=n)
              (numeric_cols ++
               ["len_m"; "wid_m"; "hgt_m"; "len_in"; "wid_in"; "hgt_in";
                "weight_kg"; "weight_lb"; "unit_cbm"; "unit_cuft";
                "total_line_cbm"; "total_line_weight_kg"; "dim_weight_lb";
                "billable_weight_lb"]) K)
  end.
  { apply preserves_bind.
    - apply preserves_for_each. intros x Hx. apply preserves_safe_numeric.
      apply elem_of_app. by left.
    - intros _. unfold numeric_cols. simpl app. solve_preserves. }
  rewrite Hp; [done|]. apply not_elem_of_concrete. reflexivity.
Qed.

(** On every table, a row with quantity 0 gets per-unit freight and import
    fees that are no finite number: both are quotients by the quantity. *)
Lemma zero_qty_row_not_finite m a df :
  ∃ Q UF UI,
    float_column (run_engine parse m a df).2 "qty" = Some Q ∧
    float_column (run_engine parse m a df).2 "unit_freight_cost" = Some UF ∧
    float_column (run_engine parse m a df).2 "unit_import_fees" = Some UI ∧
    ∀ i, Q !!! i = Fin 0 →
         is_finite (UF !!! i) = false ∧ is_finite (UI !!! i) = false.
Proof.
  destruct (run_engine_landed parse m a df)
    as (L & W & H & Wt & Q & UC & SP & DR & Hc & Hl).
  eexists Q, _, _. split_and!; [apply fcol_float_column; apply Hc || apply Hl..|].
  intros i Hi. unfold vdiv. rewrite !vlookup_zip_with, Hi.
  split; apply div_zero_not_finite.
Qed.
(** A text cell in the override column makes the third pass raise. *)
Lemma text_override_raises m a df v :
  df !! "walmart_referral_pct" = Some v →
  forallb is_numeric (vec_to_list v) = false →
  (run_engine parse m a df).1 = Raise TypeError.
Proof.
  intros Hv Htext.
  destruct (landed_run parse m a df)
    as (out1 & out2 & L & W & H & Wt & Q & UC & SP & DR & H1 & H2 & _ & _ & Hw).
  unfold run_engine. erewrite bind_run by exact H1. erewrite bind_run by exact H2.
  rewrite <- Hw in Hv.
  unfold calculate_walmart_economics.
  rewrite bind_in_columns. unfold has_column.
  rewrite bool_decide_eq_true_2 by (rewrite Hv; eauto).
  erewrite bind_raise; [reflexivity|].
  erewrite bind_raise; [reflexivity|].
  unfold getfloat.
  erewrite bind_run by (unfold getitem; rewrite Hv; reflexivity).
  unfold as_float. rewrite Htext. reflexivity.
Qed.
End Parts.

(** ** The claims on the example inputs *)


Ltac exists_column e :=
  let r := eval vm_compute in e in
  match r with Some ?v => exists v end.




(** Two rows of 100 units at 2.00: the invoice value is 400, its MPF is the
    minimum, 31, counted once, and each row carries half of
    31 + 0.50 + 150. *)
Lemma mpf_once_on_aggregate_witness :
  ∃ P AI,
    float_column (run_engine no_text ∅ scenario_assumptions override_table).2
      "total_purchase_cost" = Some P ∧
    float_column (run_engine no_text ∅ scenario_assumptions override_table).2
      "allocated_import_fees" = Some AI ∧
    P = [# Fin (lit 200 1); Fin (lit 200 1)] ∧
    total_mpf scenario_assumptions (series_sum P) = Fin (lit 31 1) ∧
    eqb (AI !!! 0%fin) (Fin (lit 9075 100)) = true ∧
    eqb (AI !!! 1%fin) (Fin (lit 9075 100)) = true ∧
    eqb (series_sum AI) (Fin (lit 1815 10)) = true.
Proof.
  destruct (mpf_once_on_aggregate no_text ∅ scenario_assumptions override_table)
    as [(UC & Q & P & AI & HUC & HQ & HP & HAI & HPeq & HAIeq & _) Hclamp].
  assert (Hle : default (lit 31 1) (mpf_min scenario_assumptions)
                ≤ default (lit 614 1) (mpf_max scenario_assumptions)).
  { apply Qcle_alt. vm_compute. discriminate. }
  vm_compute in HUC. injection HUC as <-.
  vm_compute in HQ. injection HQ as <-.
  assert (HP2 : P = [# Fin (lit 200 1); Fin (lit 200 1)]).
  { rewrite HPeq. unfold vmul, vmuls. simpl. repeat f_equal.
    all: apply Qc_is_canon; reflexivity. }
  assert (Hmpf : total_mpf scenario_assumptions (series_sum P) = Fin (lit 31 1)).
  { apply (Hclamp Hle (series_sum P)). rewrite HP2. vm_compute. reflexivity. }
  exists P, AI. split_and!; [assumption..| | |].
  - rewrite HAIeq, Hmpf, HP2. vm_compute. reflexivity.
  - rewrite HAIeq, Hmpf, HP2. vm_compute. reflexivity.
  - rewrite HAIeq, Hmpf, HP2. vm_compute. reflexivity.
Defined.






(** C6: the second row of the table has quantity 0; its freight and
    import fees per unit are 0 / 0, and its landed cost is [NaN]. *)
Theorem zero_qty_divides_by_zero :
  ∃ Q AF UF UI LC,
    float_column (run_engine no_text ∅ scenario_assumptions zero_qty_table).2
      "qty" = Some Q ∧
    float_column (run_engine no_text ∅ scenario_assumptions zero_qty_table).2
      "allocated_freight_total" = Some AF ∧
    float_column (run_engine no_text ∅ scenario_assumptions zero_qty_table).2
      "unit_freight_cost" = Some UF ∧
    float_column (run_engine no_text ∅ scenario_assumptions zero_qty_table).2
      "unit_import_fees" = Some UI ∧
    float_column (run_engine no_text ∅ scenario_assumptions zero_qty_table).2
      "landed_cost_unit" = Some LC ∧
    eqb (Q !!! 1%fin) (Fin 0) = true ∧
    UF !!! 1%fin = (AF !!! 1%fin / Q !!! 1%fin)%num ∧
    is_nan (UF !!! 1%fin) = true ∧
    is_nan (UI !!! 1%fin) = true ∧
    is_nan (LC !!! 1%fin) = true.
Proof.
  exists_column (float_column
    (run_engine no_text ∅ scenario_assumptions zero_qty_table).2 "qty").
  exists_column (float_column
    (run_engine no_text ∅ scenario_assumptions zero_qty_table).2
    "allocated_freight_total").
  exists_column (float_column
    (run_engine no_text ∅ scenario_assumptions zero_qty_table).2
    "unit_freight_cost").
  exists_column (float_column
    (run_engine no_text ∅ scenario_assumptions zero_qty_table).2
    "unit_import_fees").
  exists_column (float_column
    (run_engine no_text ∅ scenario_assumptions zero_qty_table).2
    "landed_cost_unit").
  split_and!; vm_compute; reflexivity.
Qed.

(** C8: the form stores a mapping with the column [Item] selected for SKU
    and for Quantity; the table uploaded last has no column [Item] and no
    column [sku].  The two entries of [target_cols] share the key [Item],
    the entry for [sku] is overwritten, the loop never assigns the column,
    and the table is left without a [sku] column: no placeholder.  The pass
    itself returns, and with [Item] selected for SKU alone the placeholder
    is written. *)
Theorem shared_sku_source_gets_no_placeholder :
  (save_mappings duplicate_selection ∅).1 = Saved ∧
  map_get duplicate_mapping "sku" "sku" = Some "Item" ∧
  map_get duplicate_mapping "qty" "qty" = Some "Item" ∧
  scenario_table !! "Item" = None ∧
  scenario_table !! "sku" = None ∧
  target_cols duplicate_mapping
  = [ (Some "Item", "qty"); (Some "unit_cost", "unit_cost");
      (Some "length", "length"); (Some "width", "width");
      (Some "height", "height"); (Some "weight", "weight");
      (Some "selling_price", "selling_price"); (None, "duty_rate_pct") ] ∧
  (run_conversions no_text duplicate_mapping scenario_assumptions
     scenario_table).1 = Ok tt ∧
  (run_conversions no_text duplicate_mapping scenario_assumptions
     scenario_table).2 !! "sku" = None ∧
  (save_mappings single_selection ∅).1 = Saved ∧
  (run_conversions no_text single_mapping scenario_assumptions
     scenario_table).2 !! "sku" = Some [# CStr "Unknown-SKU"].
Proof. split_and!; vm_compute; reflexivity. Qed.



Lemma caller_table_unchanged_witness :
  (run_calculations no_text 1%positive ∅ scenario_assumptions scenario_store).2
    !! 1%positive = Some (existT 1%nat scenario_table) ∧
  ∀ r, (run_calculations no_text 1%positive ∅ scenario_assumptions
          scenario_store).1 = Ok r → r ≠ 1%positive.
Proof.
  apply (caller_table_unchanged no_text scenario_store 1%positive
           (existT 1%nat scenario_table) ∅ scenario_assumptions).
  reflexivity.
Defined.

